(** * The hello-world Lambda handler of the step-function SAM example

    Source: [serverless/examples/step_function_sam_app/hello_world_python/app.py].

    The handler is five statements long: two [with tracer.trace(..)] blocks,
    the first around a [print], the second around [time.sleep(1)], and a
    [return] of a two-key dict whose body is [json.dumps] of a one-key dict.
    Everything it touches besides its own control flow is a collaborator
    that lives outside the repository (the ddtrace tracer, the interpreter's
    [print], [time.sleep], the [json] module).  The development keeps the
    handler's control flow exact (statement order, the [with] protocol,
    exception propagation) and takes the tracer, the printer and the sleeper
    as an interface; [json.dumps] is modelled as a function. *)

From Stdlib Require Import ZArith Ascii String List Lia.
From stdpp Require Import gmap strings pretty.
Import ListNotations.

Set Warnings "-register-all".

Local Open Scope string_scope.
Local Open Scope Z_scope.

(** ** Python values *)

(** The values the handler builds or may be handed.  Dicts keep insertion
    order, as Python's do.  [VObject] stands for an instance of any other
    class, known by its class name only. *)
Inductive pyval : Type :=
| VNone
| VBool (b : bool)
| VInt (z : Z)
| VStr (s : string)
| VList (xs : list pyval)
| VDict (kvs : list (pyval * pyval))
| VObject (cls : string).

(** A raised exception: its class and its message. *)
Record exn : Type := Exn { exn_class : string; exn_msg : string }.

(** The result of evaluating a Python expression or statement. *)
Inductive outcome (A : Type) : Type :=
| Ok (a : A)
| Raise (e : exn).
Arguments Ok {A} a.
Arguments Raise {A} e.

Definition type_name (v : pyval) : string :=
  match v with
  | VNone => "NoneType"
  | VBool _ => "bool"
  | VInt _ => "int"
  | VStr _ => "str"
  | VList _ => "list"
  | VDict _ => "dict"
  | VObject cls => cls
  end.

Definition TypeError (msg : string) : exn := Exn "TypeError" msg.

(** [d[k]] for a string key, [None] when the key is absent. *)
Fixpoint dict_get (k : string) (kvs : list (pyval * pyval)) : option pyval :=
  match kvs with
  | [] => None
  | (VStr k', v) :: rest => if String.eqb k k' then Some v else dict_get k rest
  | _ :: rest => dict_get k rest
  end.

Definition getitem (v : pyval) (k : string) : option pyval :=
  match v with
  | VDict kvs => dict_get k kvs
  | _ => None
  end.

(** [list(d.keys())]. *)
Definition keys (v : pyval) : option (list pyval) :=
  match v with
  | VDict kvs => Some (map fst kvs)
  | _ => None
  end.

(** [d[k] = v] for a string key on an insertion-ordered dict: an existing
    key keeps its place and takes the new value, a new key goes last. *)
Fixpoint dict_set (k : string) (v : pyval) (kvs : list (pyval * pyval))
    : list (pyval * pyval) :=
  match kvs with
  | [] => [(VStr k, v)]
  | (VStr k', v') :: rest =>
      if String.eqb k k' then (VStr k', v) :: rest
      else (VStr k', v') :: dict_set k v rest
  | kv :: rest => kv :: dict_set k v rest
  end.

(** ** JSON serialisation *)

Module Json.

(** Python's [json] module, which the handler imports, is not part of the
    repository.  Its two entry points are modelled here on values without
    floats and on strings whose code points are below 256. *)

Definition dquote : ascii := "034"%char.
Definition backslash : ascii := "092"%char.

Definition hex_digit (n : N) : ascii :=
  match n with
  | 0 => "0" | 1 => "1" | 2 => "2" | 3 => "3" | 4 => "4" | 5 => "5"
  | 6 => "6" | 7 => "7" | 8 => "8" | 9 => "9" | 10 => "a" | 11 => "b"
  | 12 => "c" | 13 => "d" | 14 => "e" | _ => "f"
  end%char%N.

(** ['\\u{0:04x}'.format(n)] for [n < 256]. *)
Definition escape_u (n : N) : string :=
  String backslash
    (String "u" (String "0" (String "0"
       (String (hex_digit (n / 16)) (String (hex_digit (n mod 16)) EmptyString))))).

(** One character of [encode_basestring_ascii]: the short escapes of
    [ESCAPE_DCT], the character itself inside [' '..'~'], a [\u] escape
    otherwise. *)
Definition escape_char (c : ascii) : string :=
  let n := N_of_ascii c in
  if (n =? 34)%N then String backslash (String dquote EmptyString)
  else if (n =? 92)%N then String backslash (String backslash EmptyString)
  else if (n =? 8)%N then String backslash "b"
  else if (n =? 12)%N then String backslash "f"
  else if (n =? 10)%N then String backslash "n"
  else if (n =? 13)%N then String backslash "r"
  else if (n =? 9)%N then String backslash "t"
  else if ((32 <=? n) && (n <=? 126))%N then String c EmptyString
  else escape_u n.

Fixpoint escape_string (s : string) : string :=
  match s with
  | EmptyString => EmptyString
  | String c rest => escape_char c +:+ escape_string rest
  end.

Definition encode_basestring_ascii (s : string) : string :=
  String dquote (escape_string s +:+ String dquote EmptyString).

(** The text a dict key is written as before it is quoted; a key of any
    other type is a [TypeError]. *)
Definition key_text (k : pyval) : outcome string :=
  match k with
  | VStr s => Ok s
  | VBool true => Ok "true"
  | VBool false => Ok "false"
  | VNone => Ok "null"
  | VInt z => Ok (pretty z)
  | _ => Raise (TypeError
           ("keys must be str, int, float, bool or None, not " +:+ type_name k))
  end.

(** [', '.join(parts)]. *)
Fixpoint join_comma (parts : list string) : string :=
  match parts with
  | [] => EmptyString
  | [p] => p
  | p :: rest => p +:+ ", " +:+ join_comma rest
  end.

(** Modelled from the spec: [json.dumps] of Python's [json] module, absent
    from the repository, with its default arguments: separators [", "] and
    [": "], [ensure_ascii=True], [skipkeys=False], no [default] hook.  Items
    are written left to right, a dict key before its value, and the first
    value that cannot be written raises. *)
Fixpoint dumps (v : pyval) : outcome string :=
  match v with
  | VNone => Ok "null"
  | VBool true => Ok "true"
  | VBool false => Ok "false"
  | VInt z => Ok (pretty z)
  | VStr s => Ok (encode_basestring_ascii s)
  | VList xs =>
      let fix items (xs : list pyval) : outcome (list string) :=
        match xs with
        | [] => Ok []
        | x :: rest =>
            match dumps x with
            | Raise e => Raise e
            | Ok sx =>
                match items rest with
                | Raise e => Raise e
                | Ok srest => Ok (sx :: srest)
                end
            end
        end in
      match items xs with
      | Raise e => Raise e
      | Ok parts => Ok ("[" +:+ join_comma parts +:+ "]")
      end
  | VDict kvs =>
      let fix members (kvs : list (pyval * pyval)) : outcome (list string) :=
        match kvs with
        | [] => Ok []
        | (k, x) :: rest =>
            match key_text k with
            | Raise e => Raise e
            | Ok sk =>
                match dumps x with
                | Raise e => Raise e
                | Ok sx =>
                    match members rest with
                    | Raise e => Raise e
                    | Ok srest =>
                        Ok ((encode_basestring_ascii sk +:+ ": " +:+ sx) :: srest)
                    end
                end
            end
        end in
      match members kvs with
      | Raise e => Raise e
      | Ok parts => Ok ("{" +:+ join_comma parts +:+ "}")
      end
  | VObject cls =>
      Raise (TypeError ("Object of type " +:+ cls +:+ " is not JSON serializable"))
  end.

Definition code (c : ascii) : N := N_of_ascii c.

Definition is_ws (c : ascii) : bool :=
  ((code c =? 32) || (code c =? 9) || (code c =? 10) || (code c =? 13))%N.

Fixpoint skip_ws (s : list ascii) : list ascii :=
  match s with
  | c :: rest => if is_ws c then skip_ws rest else s
  | [] => []
  end.

Definition is_digit (c : ascii) : bool := ((48 <=? code c) && (code c <=? 57))%N.

Definition hex_value (c : ascii) : option N :=
  let n := code c in
  if ((48 <=? n) && (n <=? 57))%N then Some (n - 48)%N
  else if ((97 <=? n) && (n <=? 102))%N then Some (n - 87)%N
  else if ((65 <=? n) && (n <=? 70))%N then Some (n - 55)%N
  else None.

(** The character a one-letter escape stands for ([BACKSLASH] in
    [json.decoder]). *)
Definition unescape (c : ascii) : option ascii :=
  match code c with
  | 34 => Some dquote
  | 92 => Some backslash
  | 47 => Some "/"
  | 98 => Some "008"
  | 102 => Some "012"
  | 110 => Some "010"
  | 114 => Some "013"
  | 116 => Some "009"
  | _ => None
  end%char%N.

(** [scanstring] in strict mode, started after the opening quote: the
    decoded text and what follows the closing quote. *)
Fixpoint scanstring (s : list ascii) : option (string * list ascii) :=
  match s with
  | [] => None
  | c :: rest =>
      if (code c =? 34)%N then Some (EmptyString, rest)
      else if (code c =? 92)%N then
        match rest with
        | [] => None
        | e :: rest1 =>
            if (code e =? 117)%N then
              match rest1 with
              | h1 :: h2 :: h3 :: h4 :: rest2 =>
                  match hex_value h1, hex_value h2, hex_value h3, hex_value h4 with
                  | Some a, Some b, Some c3, Some d =>
                      if ((a =? 0) && (b =? 0))%N then
                        match scanstring rest2 with
                        | Some (t, r) => Some (String (ascii_of_N (16 * c3 + d)) t, r)
                        | None => None
                        end
                      else None
                  | _, _, _, _ => None
                  end
              | _ => None
              end
            else
              match unescape e with
              | Some ch =>
                  match scanstring rest1 with
                  | Some (t, r) => Some (String ch t, r)
                  | None => None
                  end
              | None => None
              end
        end
      else if (code c <? 32)%N then None
      else
        match scanstring rest with
        | Some (t, r) => Some (String c t, r)
        | None => None
        end
  end.

Fixpoint take_digits (s : list ascii) : list ascii * list ascii :=
  match s with
  | c :: rest =>
      if is_digit c then let (ds, r) := take_digits rest in (c :: ds, r)
      else ([], s)
  | [] => ([], [])
  end.

Definition digits_value (ds : list ascii) : Z :=
  fold_left (fun acc d => 10 * acc + Z.of_N (code d - 48)) ds 0.

(** [NUMBER_RE] restricted to integers: an optional minus, then [0] or a
    digit string that does not start with [0]; a fraction or an exponent
    makes the number a float, which is outside the fragment. *)
Definition scan_int (s : list ascii) : option (pyval * list ascii) :=
  let '(neg, s1) :=
    match s with
    | c :: r => if (code c =? 45)%N then (true, r) else (false, s)
    | [] => (false, s)
    end in
  let body :=
    match s1 with
    | d :: r =>
        if (code d =? 48)%N then Some (0, r)
        else if is_digit d then
          let (ds, r') := take_digits s1 in Some (digits_value ds, r')
        else None
    | [] => None
    end in
  match body with
  | None => None
  | Some (z, r) =>
      match r with
      | c :: _ =>
          if ((code c =? 46) || (code c =? 101) || (code c =? 69))%N then None
          else Some (VInt (if neg then - z else z), r)
      | [] => Some (VInt (if neg then - z else z), r)
      end
  end.

(** [s] starts with the characters of [lit]: the rest of [s]. *)
Fixpoint strip_prefix (lit : string) (s : list ascii) : option (list ascii) :=
  match lit, s with
  | EmptyString, _ => Some s
  | String a lit', c :: rest =>
      if Ascii.eqb a c then strip_prefix lit' rest else None
  | String _ _, [] => None
  end.

(** [scan_once], with [JSONArray] and [JSONObject] as its two loops.  Each
    call uses one unit of [fuel]; [2 * length s + 2] units are enough for
    a text [s]. *)
Fixpoint scan_once (fuel : nat) (s : list ascii) : option (pyval * list ascii) :=
  match fuel with
  | O => None
  | S fuel' =>
      match s with
      | [] => None
      | c :: rest =>
          if (code c =? 34)%N then
            match scanstring rest with
            | Some (t, r) => Some (VStr t, r)
            | None => None
            end
          else if (code c =? 123)%N then
            match skip_ws rest with
            | c1 :: r1 =>
                if (code c1 =? 125)%N then Some (VDict [], r1)
                else if (code c1 =? 34)%N then object_members fuel' r1 []
                else None
            | [] => None
            end
          else if (code c =? 91)%N then
            match skip_ws rest with
            | c1 :: r1 =>
                if (code c1 =? 93)%N then Some (VList [], r1)
                else array_items fuel' (c1 :: r1) []
            | [] => None
            end
          else
            match strip_prefix "null" s, strip_prefix "true" s, strip_prefix "false" s with
            | Some r, _, _ => Some (VNone, r)
            | _, Some r, _ => Some (VBool true, r)
            | _, _, Some r => Some (VBool false, r)
            | None, None, None => scan_int s
            end
      end
  end
with array_items (fuel : nat) (s : list ascii) (acc : list pyval)
    : option (pyval * list ascii) :=
  match fuel with
  | O => None
  | S fuel' =>
      match scan_once fuel' s with
      | None => None
      | Some (v, rest) =>
          match skip_ws rest with
          | c :: r =>
              if (code c =? 93)%N then Some (VList (rev (v :: acc)), r)
              else if (code c =? 44)%N then array_items fuel' (skip_ws r) (v :: acc)
              else None
          | [] => None
          end
      end
  end
with object_members (fuel : nat) (s : list ascii) (acc : list (pyval * pyval))
    : option (pyval * list ascii) :=
  match fuel with
  | O => None
  | S fuel' =>
      match scanstring s with
      | None => None
      | Some (k, rest) =>
          match skip_ws rest with
          | c :: r =>
              if (code c =? 58)%N then
                match scan_once fuel' (skip_ws r) with
                | None => None
                | Some (v, rest') =>
                    match skip_ws rest' with
                    | c' :: r' =>
                        if (code c' =? 125)%N then Some (VDict (dict_set k v acc), r')
                        else if (code c' =? 44)%N then
                          match skip_ws r' with
                          | q :: r'' =>
                              if (code q =? 34)%N
                              then object_members fuel' r'' (dict_set k v acc)
                              else None
                          | [] => None
                          end
                        else None
                    | [] => None
                    end
                end
              else None
          | [] => None
          end
      end
  end.

(** Modelled from the spec: [json.loads] of Python's [json] module, absent
    from the repository, with its default arguments.  It answers [None]
    where Python raises [JSONDecodeError], and also where the text denotes
    a value outside the fragment (a float, or a [\u] escape of a code point
    above 255). *)
Definition loads (text : string) : option pyval :=
  let s := skip_ws (list_ascii_of_string text) in
  match scan_once (2 * List.length s + 2) s with
  | Some (v, rest) =>
      match skip_ws rest with
      | [] => Some v
      | _ :: _ => None
      end
  | None => None
  end.

End Json.

(** ** Effects *)

(** Every Python value is an object reference.  The objects the caller
    owns (the event and the context among them) live in a store; the
    handler receives their addresses. *)
Abbreviation loc := positive.
Abbreviation heap := (gmap loc pyval).

(** The calls the handler makes to the outside, with their arguments. *)
Inductive call (span : Type) : Type :=
| CTrace (name : string)               (* tracer.trace(name) *)
| CEnter (s : span)                    (* s.__enter__() *)
| CExit (s : span) (exc : option exn)  (* s.__exit__(exc_type, exc, tb) *)
| CPrint (text : string)               (* print(text) *)
| CSleep (secs : Z)                    (* time.sleep(secs) *)
| CDumps (v : pyval).                  (* json.dumps(v) *)
Arguments CTrace {span} name.
Arguments CEnter {span} s.
Arguments CExit {span} s exc.
Arguments CPrint {span} text.
Arguments CSleep {span} secs.
Arguments CDumps {span} v.

(** What a call answered when it returned. *)
Inductive answer (span : Type) : Type :=
| ASpan (s : span)
| ANone
| ABool (b : bool)
| AStr (t : string).
Arguments ASpan {span} s.
Arguments ANone {span}.
Arguments ABool {span} b.
Arguments AStr {span} t.

(** One performed call: what was called, how it ended, and the state of
    the outside world right before and right after it. *)
Record entry (W span : Type) : Type := Entry {
  e_call : call span;
  e_result : outcome (answer span);
  e_pre : W;
  e_post : W
}.
Arguments Entry {W span}.
Arguments e_call {W span}.
Arguments e_result {W span}.
Arguments e_pre {W span}.
Arguments e_post {W span}.

(** The collaborators, over a world [W] of their own and a type [span] of
    span objects.  [span_exit] answers the truth value of what [__exit__]
    returned (true asks the [with] statement to swallow the exception). *)
Record collaborators (W span : Type) : Type := Collaborators {
  tracer_trace : string -> W -> outcome span * W;
  span_enter : span -> W -> outcome unit * W;
  span_exit : span -> option exn -> W -> outcome bool * W;
  print : string -> W -> outcome unit * W;
  time_sleep : Z -> W -> outcome unit * W
}.
Arguments Collaborators {W span}.
Arguments tracer_trace {W span}.
Arguments span_enter {W span}.
Arguments span_exit {W span}.
Arguments print {W span}.
Arguments time_sleep {W span}.

Section Handler.

Context {W span : Type}.
Variable c : collaborators W span.

(** A statement runs from a store and a world to an outcome, a store, a
    world and the calls it performed, oldest first. *)
Definition M (A : Type) : Type :=
  heap * W -> outcome A * (heap * W) * list (entry W span).

Definition ret {A} (a : A) : M A := fun st => (Ok a, st, []).

Definition raise {A} (e : exn) : M A := fun st => (Raise e, st, []).

(** Run [m], then [k] on however [m] ended. *)
Definition on_outcome {A B} (m : M A) (k : outcome A -> M B) : M B :=
  fun st =>
    let '(r, st1, l1) := m st in
    let '(r', st2, l2) := k r st1 in
    (r', st2, (l1 ++ l2)%list).

(** Sequencing: an exception skips the rest. *)
Definition bind {A B} (m : M A) (k : A -> M B) : M B :=
  on_outcome m (fun r => match r with Ok a => k a | Raise e => raise e end).

(** A call to a collaborator: it acts on the world only, and is logged. *)
Definition perform {A} (what : call span) (f : W -> outcome A * W)
    (ans : A -> answer span) : M A :=
  fun '(h, w) =>
    let '(r, w') := f w in
    (r, (h, w'),
     [Entry what (match r with Ok a => Ok (ans a) | Raise e => Raise e end) w w']).

End Handler.

Arguments M W span A : clear implicits.

Declare Scope py_scope.
Delimit Scope py_scope with py.
Notation "x <- m ;; k" := (bind m (fun x => k))
  (at level 100, m at next level, right associativity) : py_scope.
Notation "m ;;; k" := (bind m (fun _ => k))
  (at level 100, k at level 200, right associativity) : py_scope.

Section Program.

Context {W span : Type}.
Variable c : collaborators W span.
Local Open Scope py_scope.
Local Abbreviation prog := (M W span).

Definition trace (name : string) : prog span :=
  perform (CTrace name) (tracer_trace c name) ASpan.
Definition enter (s : span) : prog unit :=
  perform (CEnter s) (span_enter c s) (fun _ => ANone).
Definition exit (s : span) (exc : option exn) : prog bool :=
  perform (CExit s exc) (span_exit c s exc) ABool.
Definition py_print (text : string) : prog unit :=
  perform (CPrint text) (print c text) (fun _ => ANone).
Definition sleep (secs : Z) : prog unit :=
  perform (CSleep secs) (time_sleep c secs) (fun _ => ANone).
Definition json_dumps (v : pyval) : prog string :=
  perform (CDumps v) (fun w => (Json.dumps v, w)) AStr.

(** [with expr: block] (PEP 343): evaluate [expr], call [__enter__], run the
    block, then call [__exit__]: with no exception when the block ended
    normally (the answer is ignored), with the block's exception when it
    raised, which is then raised again unless [__exit__] answered true.
    [__exit__] is not called when [expr] or [__enter__] raised. *)
Definition with_ (expr : prog span) (block : prog unit) : prog unit :=
  mgr <- expr ;;
  enter mgr ;;;
  on_outcome block (fun r =>
    match r with
    | Ok _ => exit mgr None ;;; ret tt
    | Raise e =>
        swallow <- exit mgr (Some e) ;;
        if (swallow : bool) then ret tt else raise e
    end).

(** [lambda_handler(event, context)] of [app.py]. *)
Definition lambda_handler (event context : loc) : prog pyval :=
  with_ (trace "hello.world")
    (py_print "Hello, World!") ;;;
  with_ (trace "sleep")
    (sleep 1) ;;;
  body <- json_dumps (VDict [(VStr "message", VStr "Hello world!")]) ;;
  ret (VDict [(VStr "statusCode", VInt 200); (VStr "body", VStr body)]).

End Program.

Arguments lambda_handler {W span} c event context.

(** ** Reading a run *)

Section Observers.

Context {W span : Type} `{EqDecision span}.
Implicit Types (log : list (entry W span)) (en : entry W span).

(** The exception a call ended on, if it raised. *)
Definition raised en : option exn :=
  match e_result en with
  | Raise e => Some e
  | Ok _ => None
  end.

(** No call of the run raised. *)
Definition quiet log : bool :=
  forallb (fun en => match raised en with None => true | Some _ => false end) log.

(** The exception of the latest call that raised. *)
Definition last_raised log : option exn :=
  fold_left (fun acc en => match raised en with Some e => Some e | None => acc end)
    log None.

Definition is_sleep (cl : call span) : bool :=
  match cl with CSleep _ => true | _ => false end.

Fixpoint drop_first (s : span) (held : list span) : list span :=
  match held with
  | [] => []
  | s' :: rest => if decide (s = s') then rest else s' :: drop_first s rest
  end.

(** The spans the [with] statements still hold at the end of [log], given
    the ones held at its start: a span is held from the return of its
    [__enter__] to the call of its [__exit__]. *)
Fixpoint open_spans log (held : list span) : list span :=
  match log with
  | [] => held
  | en :: rest =>
      match e_call en, e_result en with
      | CEnter s, Ok _ => open_spans rest (s :: held)
      | CExit s _, _ => open_spans rest (drop_first s held)
      | _, _ => open_spans rest held
      end
  end.

(** The same count taken from the return of [tracer.trace] instead: the
    spans that were created and whose [__exit__] has not been called. *)
Fixpoint live_spans log (live : list span) : list span :=
  match log with
  | [] => live
  | en :: rest =>
      match e_call en, e_result en with
      | CTrace _, Ok (ASpan s) => live_spans rest (s :: live)
      | CExit s _, _ => live_spans rest (drop_first s live)
      | _, _ => live_spans rest live
      end
  end.

Fixpoint take_started (s : span) (started : list (span * string * Z))
    : option (string * Z * list (span * string * Z)) :=
  match started with
  | [] => None
  | (s', name, t) :: rest =>
      if decide (s = s') then Some (name, t, rest)
      else
        match take_started s rest with
        | Some (name', t', rest') => Some (name', t', (s', name, t) :: rest')
        | None => None
        end
  end.

(** The spans a run emitted, in the order they were closed, each with its
    name and the two clock readings that bound it from inside: the one at
    the return of [tracer.trace] and the one at the call of [__exit__].
    Whatever instants the tracer itself reads during those two calls, the
    duration it reports is at least the difference of these two. *)
Fixpoint span_times (clock : W -> Z) log (started : list (span * string * Z))
    : list (string * Z * Z) :=
  match log with
  | [] => []
  | en :: rest =>
      match e_call en, e_result en with
      | CTrace name, Ok (ASpan s) =>
          span_times clock rest ((s, name, clock (e_post en)) :: started)
      | CExit s _, _ =>
          match take_started s started with
          | Some (name, t, started') =>
              (name, t, clock (e_pre en)) :: span_times clock rest started'
          | None => span_times clock rest started
          end
      | _, _ => span_times clock rest started
      end
  end.

End Observers.

(** ** What is assumed of the collaborators, where something is *)

Definition second_ns : Z := 1000000000.

Section Contracts.

Context {W span : Type}.
Variable c : collaborators W span.
Variable clock : W -> Z.

(** No collaborator ever raises. *)
Definition never_raises : Prop :=
  (forall name w, exists s, fst (tracer_trace c name w) = Ok s) /\
  (forall s w, fst (span_enter c s w) = Ok tt) /\
  (forall s exc w, exists b, fst (span_exit c s exc w) = Ok b) /\
  (forall text w, fst (print c text w) = Ok tt) /\
  (forall secs w, fst (time_sleep c secs w) = Ok tt).

(** A span's [__exit__] never asks to swallow the exception it is handed
    (ddtrace's returns nothing). *)
Definition never_swallows : Prop :=
  forall s e w, fst (span_exit c s (Some e) w) <> Ok true.

(** No call makes the clock (in nanoseconds) go back. *)
Definition clock_monotone : Prop :=
  (forall name w, clock w <= clock (snd (tracer_trace c name w))) /\
  (forall s w, clock w <= clock (snd (span_enter c s w))) /\
  (forall s exc w, clock w <= clock (snd (span_exit c s exc w))) /\
  (forall text w, clock w <= clock (snd (print c text w))) /\
  (forall secs w, clock w <= clock (snd (time_sleep c secs w))).

(** [time.sleep(secs)] returns only after at least [secs] seconds. *)
Definition sleep_waits : Prop :=
  forall secs w w',
    time_sleep c secs w = (Ok tt, w') -> clock w + secs * second_ns <= clock w'.

End Contracts.

(** ** A reference world *)

Module Ref.

(** One concrete outside world, to run the handler in.  Spans are
    numbered; the tracer keeps the spans that are open and the ones that
    are finished, each with its start time and duration; the clock counts
    nanoseconds; [faults] scripts, call by call, which of the coming calls
    raise instead of acting. *)

Record open_span : Type := OpenSpan {
  os_id : nat;
  os_name : string;
  os_start : Z
}.

Record finished_span : Type := FinishedSpan {
  fs_name : string;
  fs_start : Z;
  fs_duration : Z;
  fs_error : bool
}.

Record world : Type := World {
  now : Z;
  stdout : list string;
  next_id : nat;
  active : list open_span;
  finished : list finished_span;
  faults : list (option exn)
}.

(** What any call costs on the clock, besides what it is asked to wait. *)
Definition call_ns : Z := 1000.

Definition tick (dt : Z) (w : world) : world :=
  World (now w + dt) (stdout w) (next_id w) (active w) (finished w) (faults w).

(** Take the next entry of the fault script; an empty script means no
    fault. *)
Definition next_fault (w : world) : option exn * world :=
  match faults w with
  | [] => (None, w)
  | f :: rest =>
      (f, World (now w) (stdout w) (next_id w) (active w) (finished w) rest)
  end.

Definition guarded {A} (act : world -> outcome A * world) (w : world)
    : outcome A * world :=
  match next_fault w with
  | (Some e, w1) => (Raise e, tick call_ns w1)
  | (None, w1) => act (tick call_ns w1)
  end.

Definition do_trace (name : string) : world -> outcome nat * world :=
  guarded (fun w =>
    (Ok (next_id w),
     World (now w) (stdout w) (S (next_id w))
       (OpenSpan (next_id w) name (now w) :: active w) (finished w) (faults w))).

Definition do_enter (s : nat) : world -> outcome unit * world :=
  guarded (fun w => (Ok tt, w)).

Fixpoint take_span (s : nat) (l : list open_span)
    : option (open_span * list open_span) :=
  match l with
  | [] => None
  | o :: rest =>
      if Nat.eqb (os_id o) s then Some (o, rest)
      else
        match take_span s rest with
        | Some (found, rest') => Some (found, o :: rest')
        | None => None
        end
  end.

(** Finishing a span records its duration and whether it ends on an
    exception; a span that is not open is left alone.  The answer never
    asks to swallow the exception. *)
Definition do_exit (s : nat) (exc : option exn) : world -> outcome bool * world :=
  guarded (fun w =>
    match take_span s (active w) with
    | Some (o, rest) =>
        (Ok false,
         World (now w) (stdout w) (next_id w) rest
           (finished w ++
              [FinishedSpan (os_name o) (os_start o) (now w - os_start o)
                 (match exc with Some _ => true | None => false end)])%list
           (faults w))
    | None => (Ok false, w)
    end).

Definition do_print (text : string) : world -> outcome unit * world :=
  guarded (fun w =>
    (Ok tt,
     World (now w) (stdout w ++ [text])%list (next_id w) (active w) (finished w)
       (faults w))).

(** [time.sleep] refuses a negative length and otherwise returns once the
    clock has advanced by the length asked for. *)
Definition do_sleep (secs : Z) : world -> outcome unit * world :=
  guarded (fun w =>
    if secs <? 0 then
      (Raise (Exn "ValueError" "sleep length must be non-negative"), w)
    else (Ok tt, tick (secs * second_ns) w)).

(** Modelled from the spec: the external tracing client (a "start a named
    scoped span" operation, entered and exited), the log sink behind
    [print] and the clock behind [time.sleep], none of which is part of the
    repository. *)
Definition colls : collaborators world nat :=
  Collaborators do_trace do_enter do_exit do_print do_sleep.

(** A fresh process at time [t0] with the fault script [fs]. *)
Definition fresh (t0 : Z) (fs : list (option exn)) : world :=
  World t0 [] 0 [] [] fs.

(** The caller's store for [event = {}] and [context = None]. *)
Definition empty_event : loc := 1%positive.
Definition none_context : loc := 2%positive.
Definition store0 : heap := <[empty_event := VDict []]> (<[none_context := VNone]> ∅).

(** An invocation in which every call goes well, and one in which the
    [print] raises. *)
Definition pipe_error : exn := Exn "BrokenPipeError" "[Errno 32] Broken pipe".

Definition calm_run :=
  lambda_handler colls empty_event none_context (store0, fresh 0 []).

Definition print_fails_run :=
  lambda_handler colls empty_event none_context
    (store0, fresh 0 [None; None; Some pipe_error]).

End Ref.

(** ** The parts of a run *)

Section Run.

Context {A W span : Type}.
Implicit Type run : outcome A * (heap * W) * list (entry W span).

Definition run_outcome run : outcome A := fst (fst run).
Definition run_store run : heap := fst (snd (fst run)).
Definition run_world run : W := snd (snd (fst run)).
Definition run_log run : list (entry W span) := snd run.

End Run.

(** ** The response of the specification's scenario *)

Definition quoted (s : string) : string :=
  String Json.dquote (s +:+ String Json.dquote EmptyString).

(** The body, character for character: a brace, the quoted key, a colon and
    one space, the quoted message, a brace. *)
Definition hello_body : string :=
  "{" +:+ quoted "message" +:+ ": " +:+ quoted "Hello world!" +:+ "}".

Definition hello_message : pyval := VDict [(VStr "message", VStr "Hello world!")].

Definition expected_response : pyval :=
  VDict [(VStr "statusCode", VInt 200); (VStr "body", VStr hello_body)].

(** ** Kinds of calls *)

Section Kinds.

Context {W span : Type}.

Definition is_trace (cl : call span) : bool :=
  match cl with CTrace _ => true | _ => false end.
Definition is_enter (cl : call span) : bool :=
  match cl with CEnter _ => true | _ => false end.
Definition is_exit (cl : call span) : bool :=
  match cl with CExit _ _ => true | _ => false end.
Definition is_print (cl : call span) : bool :=
  match cl with CPrint _ => true | _ => false end.
Definition is_dumps (cl : call span) : bool :=
  match cl with CDumps _ => true | _ => false end.

(** How many calls of a kind a run made. *)
Definition count_calls (kind : call span -> bool) (log : list (entry W span)) : nat :=
  length (List.filter (fun en => kind (e_call en)) log).

End Kinds.

(** ** A world whose spans swallow *)

Module Lenient.

(** The reference world with one change: a span's [__exit__] that is handed
    an exception and does not itself fail answers true, which asks the
    [with] statement to drop the exception. *)
Definition do_exit (s : nat) (exc : option exn) (w : Ref.world)
    : outcome bool * Ref.world :=
  let '(r, w') := Ref.do_exit s exc w in
  (match r, exc with
   | Ok _, Some _ => Ok true
   | _, _ => r
   end, w').

Definition colls : collaborators Ref.world nat :=
  Collaborators Ref.do_trace Ref.do_enter do_exit Ref.do_print Ref.do_sleep.

(** The [print] raises and the span around it swallows the exception. *)
Definition swallowed_run :=
  lambda_handler colls Ref.empty_event Ref.none_context
    (Ref.store0, Ref.fresh 0 [None; None; Some Ref.pipe_error]).

End Lenient.

(** ** A log against the world *)

Section Replay.

Context {W span : Type}.
Variable c : collaborators W span.

(** How the result of a call is written in the log. *)
Definition answered {A} (ans : A -> answer span) (r : outcome A)
    : outcome (answer span) :=
  match r with
  | Ok a => Ok (ans a)
  | Raise e => Raise e
  end.

(** The entry records a call that was made: the collaborator named by
    [e_call], applied to those arguments in the world [e_pre], gave the
    result [e_result] and left the world [e_post].  [json.dumps] leaves the
    world alone. *)
Definition performed (en : entry W span) : Prop :=
  match e_call en with
  | CTrace name =>
      exists r, tracer_trace c name (e_pre en) = (r, e_post en) /\
                e_result en = answered ASpan r
  | CEnter s =>
      exists r, span_enter c s (e_pre en) = (r, e_post en) /\
                e_result en = answered (fun _ => ANone) r
  | CExit s exc =>
      exists r, span_exit c s exc (e_pre en) = (r, e_post en) /\
                e_result en = answered ABool r
  | CPrint text =>
      exists r, print c text (e_pre en) = (r, e_post en) /\
                e_result en = answered (fun _ => ANone) r
  | CSleep secs =>
      exists r, time_sleep c secs (e_pre en) = (r, e_post en) /\
                e_result en = answered (fun _ => ANone) r
  | CDumps v =>
      e_post en = e_pre en /\ e_result en = answered AStr (Json.dumps v)
  end.

(** The log is what happened to the world between [w] and [w']: its
    first call was made in [w], each next one in the world the one before
    left, the last one left [w'], and every one of them was made. *)
Fixpoint replays (w : W) (log : list (entry W span)) (w' : W) : Prop :=
  match log with
  | [] => w' = w
  | en :: rest => e_pre en = w /\ performed en /\ replays (e_post en) rest w'
  end.

End Replay.

(** ** What is assumed of a tracer's spans, where something is *)

Section SpanContracts.

Context {W span : Type} `{EqDecision span}.
Variable c : collaborators W span.

(** A span's [__enter__] returns (ddtrace's only returns the span). *)
Definition enter_returns : Prop :=
  forall s w, fst (span_enter c s w) = Ok tt.

(** A span's [__exit__] returns (ddtrace's catches what goes wrong while
    it finishes the span). *)
Definition exit_returns : Prop :=
  forall s exc w, exists b, fst (span_exit c s exc w) = Ok b.

(** A span's [__exit__] that is handed an exception does not raise one of
    its own. *)
Definition exit_hands_back : Prop :=
  forall s e w, exists b, fst (span_exit c s (Some e) w) = Ok b.

(** [held w] are the spans the tracer has open in the world [w]:
    [tracer.trace] that returns opens the span it returns, an [__exit__]
    that returns closes its span, and nothing else opens or closes one. *)
Definition tracer_tracks (held : W -> list span) : Prop :=
  (forall name w s w',
     tracer_trace c name w = (Ok s, w') -> held w' = s :: held w) /\
  (forall name w e w',
     tracer_trace c name w = (Raise e, w') -> held w' = held w) /\
  (forall s w r w', span_enter c s w = (r, w') -> held w' = held w) /\
  (forall s exc w b w',
     span_exit c s exc w = (Ok b, w') -> held w' = drop_first s (held w)) /\
  (forall text w r w', print c text w = (r, w') -> held w' = held w) /\
  (forall secs w r w', time_sleep c secs w = (r, w') -> held w' = held w).

End SpanContracts.

(** ** A world whose spans do not fail *)

Module Steady.

(** The reference world with spans like ddtrace's: [__enter__] only
    returns, [__exit__] finishes the span and returns, and the fault script
    reaches neither; it still reaches [tracer.trace], [print] and
    [time.sleep]. *)
Definition do_enter (s : nat) (w : Ref.world) : outcome unit * Ref.world :=
  (Ok tt, Ref.tick Ref.call_ns w).

Definition do_exit (s : nat) (exc : option exn) (w0 : Ref.world)
    : outcome bool * Ref.world :=
  let w := Ref.tick Ref.call_ns w0 in
  match Ref.take_span s (Ref.active w) with
  | Some (o, rest) =>
      (Ok false,
       Ref.World (Ref.now w) (Ref.stdout w) (Ref.next_id w) rest
         (Ref.finished w ++
            [Ref.FinishedSpan (Ref.os_name o) (Ref.os_start o)
               (Ref.now w - Ref.os_start o)
               (match exc with Some _ => true | None => false end)])%list
         (Ref.faults w))
  | None => (Ok false, w)
  end.

Definition colls : collaborators Ref.world nat :=
  Collaborators Ref.do_trace do_enter do_exit Ref.do_print Ref.do_sleep.

(** The spans the tracer has open. *)
Definition held (w : Ref.world) : list nat := map Ref.os_id (Ref.active w).

(** The [print] raises. *)
Definition print_fails_run :=
  lambda_handler colls Ref.empty_event Ref.none_context
    (Ref.store0, Ref.fresh 0 [None; Some Ref.pipe_error]).

(** The [time.sleep] raises. *)
Definition sleep_fails_run :=
  lambda_handler colls Ref.empty_event Ref.none_context
    (Ref.store0, Ref.fresh 0 [None; None; None; Some Ref.pipe_error]).

End Steady.

(** * Properties *)

(** ** The JSON model on examples *)

Example dumps_hello_message : Json.dumps hello_message = Ok hello_body.
Proof. reflexivity. Qed.

Example hello_body_length : String.length hello_body = 27%nat.
Proof. reflexivity. Qed.

Example hello_body_space_after_colon :
  String.get 10 hello_body = Some ":"%char /\ String.get 11 hello_body = Some " "%char.
Proof. split; reflexivity. Qed.

Example dumps_nested :
  Json.dumps (VList [VInt (-12); VBool true; VNone;
                     VDict [(VInt 3, VList []); (VNone, VStr (String "010" "a\b"))]])
  = Ok ("[-12, true, null, {" +:+ quoted "3" +:+ ": [], " +:+ quoted "null" +:+ ": "
          +:+ quoted "\na\\b" +:+ "}]").
Proof. reflexivity. Qed.

Example dumps_rejects_object :
  Json.dumps (VList [VInt 1; VObject "set"])
  = Raise (TypeError "Object of type set is not JSON serializable").
Proof. reflexivity. Qed.

Example loads_after_dumps_nested :
  let v := VList [VInt (-12); VBool true; VNone;
                  VDict [(VStr "k", VList [VStr (String "010" "a\b"); VDict []])]] in
  match Json.dumps v with
  | Ok text => Json.loads text = Some v
  | Raise _ => False
  end.
Proof. vm_compute. reflexivity. Qed.

Example loads_rejects :
  Json.loads "[1,]" = None /\ Json.loads "{" = None /\ Json.loads "01" = None /\
  Json.loads "nul" = None /\ Json.loads "[1] x" = None /\ Json.loads EmptyString = None.
Proof. vm_compute. repeat split. Qed.

Example loads_later_key_wins :
  Json.loads ("{" +:+ quoted "a" +:+ ": 1, " +:+ quoted "b" +:+ ": 2, "
                +:+ quoted "a" +:+ ": 3}")
  = Some (VDict [(VStr "a", VInt 3); (VStr "b", VInt 2)]).
Proof. vm_compute. reflexivity. Qed.

(** ** Case analysis of a run *)

Ltac unfold_handler_in H :=
  unfold lambda_handler, with_, bind, on_outcome, trace, enter, exit,
    py_print, sleep, json_dumps, perform, ret, raise in H.

(** Split on how each collaborator call of the run recorded in [H] ended. *)
Ltac split_calls H c :=
  repeat match type of H with
  | context [tracer_trace c ?n ?w] =>
      destruct (tracer_trace c n w) as [[?|?] ?] eqn:?; simpl in H
  | context [span_enter c ?s ?w] =>
      destruct (span_enter c s w) as [[[]|?] ?] eqn:?; simpl in H
  | context [print c ?t ?w] =>
      destruct (print c t w) as [[[]|?] ?] eqn:?; simpl in H
  | context [time_sleep c ?t ?w] =>
      destruct (time_sleep c t w) as [[[]|?] ?] eqn:?; simpl in H
  | context [span_exit c ?s ?x ?w] =>
      destruct (span_exit c s x w) as [[[|]|?] ?] eqn:?; simpl in H
  end.

Ltac run_cases H c :=
  unfold_handler_in H; simpl in H; split_calls H c;
  inversion H; subst; clear H.

(** Name the parts of the run at hand and split it into its cases. *)
Ltac by_run_cases c :=
  let go ev ctx st :=
    let H := fresh "Hrun" in
    let run := fresh "run" in
    remember (lambda_handler c ev ctx st) as run eqn:H;
    destruct run as [[? [? ?]] ?]; symmetry in H;
    unfold run_outcome, run_store, run_world, run_log in *; simpl in *;
    run_cases H c in
  match goal with
  | |- context [lambda_handler c ?ev ?ctx ?st] => go ev ctx st
  | _ : context [lambda_handler c ?ev ?ctx ?st] |- _ => go ev ctx st
  end.

Section Returns.

Context {W span : Type}.
Variable c : collaborators W span.

(** Whenever the handler returns, it returns the expected response. *)
Lemma returned_value event context h w r :
  run_outcome (lambda_handler c event context (h, w)) = Ok r ->
  r = expected_response.
Proof.
  by_run_cases c; intros Hr; try discriminate Hr.
  all: injection Hr as <-; reflexivity.
Qed.

(** When no call raises, the handler returns. *)
Lemma quiet_returns event context h w :
  quiet (run_log (lambda_handler c event context (h, w))) = true ->
  run_outcome (lambda_handler c event context (h, w)) = Ok expected_response.
Proof.
  by_run_cases c; intros Hq; try discriminate Hq.
  all: reflexivity.
Qed.

(** With collaborators that never raise, no call of a run raises. *)
Lemma never_raises_quiet event context h w :
  never_raises c ->
  quiet (run_log (lambda_handler c event context (h, w))) = true.
Proof.
  by_run_cases c; intros (Ht & Hen & Hex & Hp & Hs); try reflexivity; exfalso.
  all: repeat match goal with
       | E : tracer_trace c ?n ?w0 = (Raise _, _) |- _ =>
           destruct (Ht n w0) as [? Hok]; rewrite E in Hok; discriminate Hok
       | E : span_enter c ?s ?w0 = (Raise _, _) |- _ =>
           specialize (Hen s w0); rewrite E in Hen; discriminate Hen
       | E : span_exit c ?s ?x ?w0 = (Raise _, _) |- _ =>
           destruct (Hex s x w0) as [? Hok]; rewrite E in Hok; discriminate Hok
       | E : print c ?t ?w0 = (Raise _, _) |- _ =>
           specialize (Hp t w0); rewrite E in Hp; discriminate Hp
       | E : time_sleep c ?t ?w0 = (Raise _, _) |- _ =>
           specialize (Hs t w0); rewrite E in Hs; discriminate Hs
       end.
Qed.

End Returns.

(** The same split, on a goal where the handler has been unfolded. *)
Ltac split_goal_calls c :=
  repeat match goal with
  | |- context [tracer_trace c ?n ?w] =>
      destruct (tracer_trace c n w) as [[?|?] ?]; simpl
  | |- context [span_enter c ?s ?w] =>
      destruct (span_enter c s w) as [[[]|?] ?]; simpl
  | |- context [print c ?t ?w] =>
      destruct (print c t w) as [[[]|?] ?]; simpl
  | |- context [time_sleep c ?t ?w] =>
      destruct (time_sleep c t w) as [[[]|?] ?]; simpl
  | |- context [span_exit c ?s ?x ?w] =>
      destruct (span_exit c s x w) as [[[|]|?] ?]; simpl
  end.

Section Frame.

Context {W span : Type}.
Variable c : collaborators W span.

(** A run carries the store through untouched, and nothing else of the run
    depends on the store or on the two arguments. *)
Lemma store_frame event context h event' context' h' w :
  lambda_handler c event context (h, w) =
  (run_outcome (lambda_handler c event' context' (h', w)),
   (h, run_world (lambda_handler c event' context' (h', w))),
   run_log (lambda_handler c event' context' (h', w))).
Proof.
  unfold run_outcome, run_world, run_log, lambda_handler, with_, bind, on_outcome,
    trace, enter, exit, py_print, sleep, json_dumps, perform, ret, raise.
  simpl. split_goal_calls c; reflexivity.
Qed.

End Frame.

(** ** The response *)

Section Response.

Context {W span : Type}.
Variables (c : collaborators W span) (event context : loc) (h : heap) (w : W).

Local Abbreviation the_run := (lambda_handler c event context (h, w)).

(** C1. Whatever event and context the handler is invoked on, the response
    it returns has status code 200; and it does return one whenever none of
    the calls it makes raises. *)
Theorem lambda_handler_status_200 :
  (forall r, run_outcome the_run = Ok r ->
             getitem r "statusCode" = Some (VInt 200)) /\
  (quiet (run_log the_run) = true ->
   exists r, run_outcome the_run = Ok r /\ getitem r "statusCode" = Some (VInt 200)).
Proof.
  split.
  - intros r Hr. apply returned_value in Hr. subst r. reflexivity.
  - intros Hq. exists expected_response. split; [|reflexivity].
    apply quiet_returns, Hq.
Qed.

(** C2. The body of the returned response is JSON text, and decoding it
    gives exactly the one-key object with key "message" and value
    "Hello world!"; the handler returns whenever none of its calls raises. *)
Theorem lambda_handler_body_decodes :
  (forall r, run_outcome the_run = Ok r ->
     exists body,
       getitem r "body" = Some (VStr body) /\
       Json.loads body = Some (VDict [(VStr "message", VStr "Hello world!")])) /\
  (quiet (run_log the_run) = true -> exists r, run_outcome the_run = Ok r).
Proof.
  split.
  - intros r Hr. apply returned_value in Hr. subst r.
    exists hello_body. split; [reflexivity|]. vm_compute. reflexivity.
  - intros Hq. exists expected_response. apply quiet_returns, Hq.
Qed.

(** C3. Invoked on an empty dict as event and on None as context, the
    handler returns exactly the record with status code 200 and body
    [hello_body], the serialized text with its space after the colon. *)
Theorem lambda_handler_empty_event :
  h !! event = Some (VDict []) ->
  h !! context = Some VNone ->
  (quiet (run_log the_run) = true ->
   run_outcome the_run =
     Ok (VDict [(VStr "statusCode", VInt 200); (VStr "body", VStr hello_body)])) /\
  (forall r, run_outcome the_run = Ok r ->
     r = VDict [(VStr "statusCode", VInt 200); (VStr "body", VStr hello_body)]).
Proof.
  intros _ _. split.
  - apply quiet_returns.
  - apply returned_value.
Qed.

(** C10. The returned record has exactly the two keys "statusCode" and
    "body" (so no "headers"), and its status code is the integer 200, not
    the string; the handler returns whenever none of its calls raises. *)
Theorem lambda_handler_response_keys :
  (forall r, run_outcome the_run = Ok r ->
     keys r = Some [VStr "statusCode"; VStr "body"] /\
     getitem r "headers" = None /\
     getitem r "statusCode" = Some (VInt 200) /\
     getitem r "statusCode" <> Some (VStr "200")) /\
  (quiet (run_log the_run) = true -> exists r, run_outcome the_run = Ok r).
Proof.
  split.
  - intros r Hr. apply returned_value in Hr. subst r.
    repeat split; try reflexivity. discriminate.
  - intros Hq. exists expected_response. apply quiet_returns, Hq.
Qed.

(** C9. The handler leaves the caller's store as it found it, the event
    and the context in particular; and it reads neither: invoked on any
    other arguments and any other store, it makes the same calls and ends
    the same way. *)
Theorem lambda_handler_leaves_arguments :
  run_store the_run = h /\
  run_store the_run !! event = h !! event /\
  run_store the_run !! context = h !! context /\
  forall event' context' h',
    run_store (lambda_handler c event' context' (h', w)) = h' /\
    run_outcome (lambda_handler c event' context' (h', w)) = run_outcome the_run /\
    run_world (lambda_handler c event' context' (h', w)) = run_world the_run /\
    run_log (lambda_handler c event' context' (h', w)) = run_log the_run.
Proof.
  assert (Hs : forall e x s, run_store (lambda_handler c e x (s, w)) = s).
  { intros e x s. rewrite (store_frame c e x s e x s). reflexivity. }
  rewrite Hs. repeat split; try reflexivity.
  - apply Hs.
  - rewrite (store_frame c event context h event' context' h'). reflexivity.
  - rewrite (store_frame c event context h event' context' h'). reflexivity.
  - rewrite (store_frame c event context h event' context' h'). reflexivity.
Qed.

End Response.

(** C4. Two invocations, on whatever events and contexts, return the same
    record: any two responses are equal, both invocations do return when
    none of their calls raises, and in the same world they end the same
    way. *)
Theorem lambda_handler_same_response {W span : Type} (c : collaborators W span)
    (event1 context1 event2 context2 : loc) (h1 h2 : heap) (w1 w2 : W) :
  (forall r1 r2,
     run_outcome (lambda_handler c event1 context1 (h1, w1)) = Ok r1 ->
     run_outcome (lambda_handler c event2 context2 (h2, w2)) = Ok r2 ->
     r1 = r2) /\
  (quiet (run_log (lambda_handler c event1 context1 (h1, w1))) = true ->
   quiet (run_log (lambda_handler c event2 context2 (h2, w2))) = true ->
   exists r,
     run_outcome (lambda_handler c event1 context1 (h1, w1)) = Ok r /\
     run_outcome (lambda_handler c event2 context2 (h2, w2)) = Ok r) /\
  (w1 = w2 ->
   run_outcome (lambda_handler c event1 context1 (h1, w1)) =
   run_outcome (lambda_handler c event2 context2 (h2, w2))).
Proof.
  repeat split.
  - intros r1 r2 H1 H2.
    apply returned_value in H1. apply returned_value in H2. congruence.
  - intros Q1 Q2. exists expected_response.
    split; apply quiet_returns; assumption.
  - intros <-.
    rewrite (store_frame c event1 context1 h1 event2 context2 h2). reflexivity.
Qed.

(** ** The spans *)

Section Clock.

Context {W span : Type}.
Variables (c : collaborators W span) (clock : W -> Z).
Hypothesis Hmono : clock_monotone c clock.

Lemma trace_clock name w r w' :
  tracer_trace c name w = (r, w') -> clock w <= clock w'.
Proof. intros E. destruct Hmono as (H & _). specialize (H name w). now rewrite E in H. Qed.

Lemma enter_clock s w r w' :
  span_enter c s w = (r, w') -> clock w <= clock w'.
Proof. intros E. destruct Hmono as (_ & H & _). specialize (H s w). now rewrite E in H. Qed.

Lemma exit_clock s exc w r w' :
  span_exit c s exc w = (r, w') -> clock w <= clock w'.
Proof.
  intros E. destruct Hmono as (_ & _ & H & _). specialize (H s exc w). now rewrite E in H.
Qed.

Lemma print_clock text w r w' :
  print c text w = (r, w') -> clock w <= clock w'.
Proof.
  intros E. destruct Hmono as (_ & _ & _ & H & _). specialize (H text w). now rewrite E in H.
Qed.

Lemma sleep_clock secs w r w' :
  time_sleep c secs w = (r, w') -> clock w <= clock w'.
Proof.
  intros E. destruct Hmono as (_ & _ & _ & _ & H). specialize (H secs w). now rewrite E in H.
Qed.

End Clock.

(** Turn the recorded calls of a run into what they say about the clock. *)
Ltac clock_steps Hm :=
  repeat match goal with
  | E : tracer_trace _ _ _ = _ |- _ => apply (trace_clock _ _ Hm) in E
  | E : span_enter _ _ _ = _ |- _ => apply (enter_clock _ _ Hm) in E
  | E : span_exit _ _ _ _ = _ |- _ => apply (exit_clock _ _ Hm) in E
  | E : print _ _ _ = _ |- _ => apply (print_clock _ _ Hm) in E
  | E : time_sleep _ _ _ = _ |- _ => apply (sleep_clock _ _ Hm) in E
  end.

Ltac same_span :=
  repeat match goal with
  | |- context [decide (?s = ?s)] =>
      destruct (decide (s = s)) as [_|Hne]; [|exfalso; apply Hne; reflexivity]
  end.

Section Replayed.

Context {W span : Type}.
Variable c : collaborators W span.

(** The log of a run is what the run did to the world. *)
Lemma run_replays event context h w :
  replays c w (run_log (lambda_handler c event context (h, w)))
    (run_world (lambda_handler c event context (h, w))).
Proof.
  by_run_cases c; simpl; unfold performed; simpl.
  all: repeat (split; [first [reflexivity | eexists; split; [eassumption|reflexivity]
                             | split; reflexivity]|]).
  all: reflexivity.
Qed.

End Replayed.

(** Enumerate the positions of a log of known length. *)
Ltac at_index i H :=
  repeat (destruct i as [|i]; simpl in H; [injection H as <-|]);
  try match goal with
      | Hend : _ !! _ = Some _ |- _ => discriminate Hend
      | Hend : None = Some _ |- _ => discriminate Hend
      end.

(** C5. The log of an invocation is what the invocation did to the world,
    call by call.  The spans it has closed are, on every path, the first
    ones of "hello.world" then "sleep", one after the other and, on a clock
    that never goes back, none ending before it starts.  An invocation that
    returns has emitted exactly these two, the first exited before the
    second is started, and invocations in which no call raises do return.
    The line "Hello, World!" is printed only between the entry and the exit
    of the span that [tracer.trace("hello.world")] returned. *)
Theorem lambda_handler_two_spans {W span : Type} `{EqDecision span}
    (c : collaborators W span) (clock : W -> Z)
    (event context : loc) (h : heap) (w : W) :
  clock_monotone c clock ->
  replays c w (run_log (lambda_handler c event context (h, w)))
    (run_world (lambda_handler c event context (h, w))) /\
  (exists t1 t2 t3 t4 rest,
     t1 <= t2 /\ t2 <= t3 /\ t3 <= t4 /\
     [("hello.world", t1, t2); ("sleep", t3, t4)] =
       (span_times clock (run_log (lambda_handler c event context (h, w))) []
          ++ rest)%list) /\
  (forall r,
     run_outcome (lambda_handler c event context (h, w)) = Ok r ->
     exists s1 s2 x1 x2 t1 t2 t3 t4,
       map e_call (run_log (lambda_handler c event context (h, w))) =
         [CTrace "hello.world"; CEnter s1; CPrint "Hello, World!"; CExit s1 x1;
          CTrace "sleep"; CEnter s2; CSleep 1; CExit s2 x2;
          CDumps (VDict [(VStr "message", VStr "Hello world!")])] /\
       span_times clock (run_log (lambda_handler c event context (h, w))) [] =
         [("hello.world", t1, t2); ("sleep", t3, t4)] /\
       t1 <= t2 /\ t2 <= t3 /\ t3 <= t4) /\
  (forall (i : nat) en,
     run_log (lambda_handler c event context (h, w)) !! i = Some en ->
     is_print (e_call en) = true ->
     exists tr ent ex s,
       run_log (lambda_handler c event context (h, w)) !! 0%nat = Some tr /\
       e_call tr = CTrace "hello.world" /\ e_result tr = Ok (ASpan s) /\
       run_log (lambda_handler c event context (h, w)) !! 1%nat = Some ent /\
       e_call ent = CEnter s /\ raised ent = None /\
       i = 2%nat /\ e_call en = CPrint "Hello, World!" /\
       run_log (lambda_handler c event context (h, w)) !! 3%nat = Some ex /\
       e_call ex = CExit s (raised en)) /\
  (quiet (run_log (lambda_handler c event context (h, w))) = true ->
   exists r, run_outcome (lambda_handler c event context (h, w)) = Ok r).
Proof.
  intros Hm. split; [apply run_replays|].
  split; [|split; [|split]].
  - by_run_cases c; simpl; same_span; clock_steps Hm.
    all: first
      [ exists 0, 0, 0, 0; eexists;
        (split; [|split; [|split; [|reflexivity]]]); lia
      | let a := fresh "a" in let b := fresh "b" in
        evar (a : Z); evar (b : Z); exists a, b, b, b; eexists; subst a b;
        (split; [|split; [|split; [|reflexivity]]]); lia
      | do 4 eexists; exists [];
        (split; [|split; [|split; [|reflexivity]]]); lia ].
  - revert Hm. by_run_cases c; intros Hm r' Hr; try discriminate Hr.
    all: do 8 eexists; split; [reflexivity|]; split;
      [simpl; same_span; reflexivity|]; clock_steps Hm; lia.
  - clear Hm. by_run_cases c; intros i en Hi Hk; at_index i Hi; simpl in Hk;
      try discriminate Hk; do 4 eexists; repeat split.
  - intros Hq. exists expected_response. apply quiet_returns, Hq.
Qed.

Ltac held_steps Ht Hen Hex :=
  let H1 := fresh in let H2 := fresh in let H3 := fresh in
  let H4 := fresh in let H5 := fresh in let H6 := fresh in
  destruct Ht as (H1 & H2 & H3 & H4 & H5 & H6);
  repeat match goal with
  | E : span_enter _ ?s ?w0 = (Raise _, _) |- _ =>
      exfalso; specialize (Hen s w0); rewrite E in Hen; discriminate Hen
  | E : span_exit _ ?s ?x ?w0 = (Raise _, _) |- _ =>
      exfalso; destruct (Hex s x w0) as [? Hb]; rewrite E in Hb; discriminate Hb
  end;
  repeat match goal with
  | E : tracer_trace _ _ _ = (Ok _, _) |- _ => apply H1 in E
  | E : tracer_trace _ _ _ = (Raise _, _) |- _ => apply H2 in E
  | E : span_enter _ _ _ = _ |- _ => apply H3 in E
  | E : span_exit _ _ _ _ = (Ok _, _) |- _ => apply H4 in E
  | E : print _ _ _ = _ |- _ => apply H5 in E
  | E : time_sleep _ _ _ = _ |- _ => apply H6 in E
  end.

(** C6. The log of an invocation is what the invocation did to the world,
    call by call.  On every path through the handler, however it ends, no
    span is still held by a [with] statement at the end, and every span
    whose [__enter__] returned gets its [__exit__] called right after the
    one call of its block (the print or the sleep), with the exception that
    call raised when it raised.  So with a tracer that keeps track of its
    open spans and whose spans' [__enter__] and [__exit__] return (as
    ddtrace's do), the tracer has the same spans open after the invocation
    as before it, whether [tracer.trace], the print or the sleep raised or
    not. *)
Theorem lambda_handler_closes_spans {W span : Type} `{EqDecision span}
    (c : collaborators W span) (event context : loc) (h : heap) (w : W) :
  replays c w (run_log (lambda_handler c event context (h, w)))
    (run_world (lambda_handler c event context (h, w))) /\
  open_spans (run_log (lambda_handler c event context (h, w))) [] = [] /\
  (forall (i : nat) en s,
     run_log (lambda_handler c event context (h, w)) !! i = Some en ->
     e_call en = CEnter s ->
     raised en = None ->
     exists op ex,
       run_log (lambda_handler c event context (h, w)) !! S i = Some op /\
       run_log (lambda_handler c event context (h, w)) !! S (S i) = Some ex /\
       (e_call op = CPrint "Hello, World!" \/ e_call op = CSleep 1) /\
       e_call ex = CExit s (raised op)) /\
  (forall held : W -> list span,
     tracer_tracks c held -> enter_returns c -> exit_returns c ->
     held (run_world (lambda_handler c event context (h, w))) = held w).
Proof.
  split; [apply run_replays|].
  by_run_cases c; (split; [simpl; same_span; reflexivity|]); split.
  all: try (intros i en s Hi Hc Hr; at_index i Hi; simpl in Hc, Hr;
    try discriminate Hc; try discriminate Hr;
    injection Hc as <-; do 2 eexists;
    (split; [reflexivity|]); (split; [reflexivity|]);
    (split; [auto|reflexivity])).
  all: intros held Ht Hen Hex; held_steps Ht Hen Hex.
  all: repeat match goal with
       | E : ?f ?x = _ |- context [?f ?x] => rewrite E; clear E
       end; simpl; same_span; reflexivity.
Qed.

(** ** Exceptions *)

Section Swallow.

Context {W span : Type}.
Variable c : collaborators W span.
Hypothesis Hns : never_swallows c.

Lemma exit_not_true s e w w' : span_exit c s (Some e) w = (Ok true, w') -> False.
Proof. intros E. apply (Hns s e w). rewrite E. reflexivity. Qed.

End Swallow.

(** Discard the cases in which an [__exit__] swallowed an exception. *)
Ltac no_swallow Hns :=
  try match goal with
  | E : span_exit _ _ (Some _) _ = (Ok true, _) |- _ =>
      exfalso; exact (exit_not_true _ Hns _ _ _ _ E)
  end.

Section HandsBack.

Context {W span : Type}.
Variable c : collaborators W span.
Hypothesis Hhb : exit_hands_back c.

Lemma exit_not_raise s e w e' w' : span_exit c s (Some e) w = (Raise e', w') -> False.
Proof. intros E. destruct (Hhb s e w) as [b Hb]. rewrite E in Hb. discriminate Hb. Qed.

End HandsBack.

Ltac no_exit_raise Hhb :=
  try match goal with
  | E : span_exit _ _ (Some _) _ = (Raise _, _) |- _ =>
      exfalso; exact (exit_not_raise _ Hhb _ _ _ _ _ E)
  end.

(** C7. The handler handles no error.  The log of an invocation is what
    the invocation did to the world, call by call.  With spans whose
    [__exit__], handed an exception, neither swallows it nor raises one of
    its own (as ddtrace's), every exception a call raises is the one the
    handler raises, unchanged; the handler raises only an exception that
    one of its calls raised, and returns exactly when no call raises; and
    once a call has raised, the only call still made is the [__exit__] of
    the span around it, handed that very exception: nothing is called
    again. *)
Theorem lambda_handler_propagates {W span : Type}
    (c : collaborators W span) (event context : loc) (h : heap) (w : W) :
  never_swallows c ->
  exit_hands_back c ->
  replays c w (run_log (lambda_handler c event context (h, w)))
    (run_world (lambda_handler c event context (h, w))) /\
  (forall (i : nat) en e,
     run_log (lambda_handler c event context (h, w)) !! i = Some en ->
     raised en = Some e ->
     run_outcome (lambda_handler c event context (h, w)) = Raise e) /\
  (forall e,
     run_outcome (lambda_handler c event context (h, w)) = Raise e ->
     exists (i : nat) en,
       run_log (lambda_handler c event context (h, w)) !! i = Some en /\
       raised en = Some e) /\
  ((exists r, run_outcome (lambda_handler c event context (h, w)) = Ok r) <->
   quiet (run_log (lambda_handler c event context (h, w))) = true) /\
  (forall (i j : nat) en en' e,
     run_log (lambda_handler c event context (h, w)) !! i = Some en ->
     raised en = Some e ->
     run_log (lambda_handler c event context (h, w)) !! j = Some en' ->
     (i < j)%nat ->
     j = S i /\ (exists s, e_call en' = CExit s (Some e)) /\ e_call en' <> e_call en).
Proof.
  intros Hns Hhb. split; [apply run_replays|]. revert Hns Hhb.
  by_run_cases c; intros Hns Hhb; no_swallow Hns; no_exit_raise Hhb.
  all: unfold quiet; simpl.
  all: (split; [intros i en e' Hi Hr; at_index i Hi; simpl in Hr;
                 try discriminate Hr; injection Hr as <-; reflexivity|]).
  all: (split; [intros e' He; first [discriminate He | injection He as <-];
                 first [ exists 0%nat; eexists; split; reflexivity
                       | exists 1%nat; eexists; split; reflexivity
                       | exists 2%nat; eexists; split; reflexivity
                       | exists 3%nat; eexists; split; reflexivity
                       | exists 4%nat; eexists; split; reflexivity
                       | exists 5%nat; eexists; split; reflexivity
                       | exists 6%nat; eexists; split; reflexivity
                       | exists 7%nat; eexists; split; reflexivity
                       | exists 8%nat; eexists; split; reflexivity ]|]).
  all: split; [split; [intros [r' Hr']; congruence | try discriminate; eauto]|].
  all: intros i j en en' e' Hi Hr Hj Hij; at_index i Hi; simpl in Hr;
    try discriminate Hr; injection Hr as <-;
    at_index j Hj; try lia; simpl;
    (split; [reflexivity|]); (split; [eauto|discriminate]).
Qed.

(** ** The delay *)

(** C8. With spans that do not swallow exceptions, an invocation that
    returns has called [time.sleep] exactly once, for 1 second, and that
    call returned; so on a clock that never goes back and on which a sleep
    lasts at least as long as asked, at least one second has passed between
    the start and the end of the invocation. *)
Theorem lambda_handler_waits_a_second {W span : Type}
    (c : collaborators W span) (clock : W -> Z)
    (event context : loc) (h : heap) (w : W) (r : pyval) :
  never_swallows c ->
  clock_monotone c clock ->
  sleep_waits c clock ->
  run_outcome (lambda_handler c event context (h, w)) = Ok r ->
  (exists en,
     List.filter (fun en => is_sleep (e_call en))
       (run_log (lambda_handler c event context (h, w))) = [en] /\
     e_call en = CSleep 1 /\ raised en = None) /\
  clock w + second_ns <= clock (run_world (lambda_handler c event context (h, w))).
Proof.
  by_run_cases c; intros Hns Hm Hs Hr; try discriminate Hr; no_swallow Hns.
  all: split; [eexists; split; [reflexivity|split; reflexivity]|].
  all: match goal with
       | E : time_sleep _ _ _ = _ |- _ => pose proof (Hs _ _ _ E)
       end;
       clock_steps Hm; unfold second_ns in *; lia.
Qed.

(** ** The reference world meets the assumptions *)

Lemma ref_guarded_clock {A} (act : Ref.world -> outcome A * Ref.world) w :
  (forall w1, Ref.now w1 <= Ref.now (snd (act w1))) ->
  Ref.now w <= Ref.now (snd (Ref.guarded act w)).
Proof.
  intros Hact. unfold Ref.guarded, Ref.next_fault.
  destruct (Ref.faults w) as [|[e|] rest]; simpl.
  - specialize (Hact (Ref.tick Ref.call_ns w)). simpl in Hact.
    unfold Ref.call_ns in *. lia.
  - unfold Ref.call_ns. lia.
  - match goal with |- _ <= Ref.now (snd (act ?w1)) => specialize (Hact w1) end.
    simpl in Hact. unfold Ref.call_ns in *. lia.
Qed.

Lemma ref_clock_monotone : clock_monotone Ref.colls Ref.now.
Proof.
  repeat split; simpl; intros.
  - apply ref_guarded_clock. intros w1. simpl. lia.
  - apply ref_guarded_clock. intros w1. simpl. lia.
  - apply ref_guarded_clock. intros w1. destruct (Ref.take_span s (Ref.active w1)) as [[o rest]|]; simpl; lia.
  - apply ref_guarded_clock. intros w1. simpl. lia.
  - apply ref_guarded_clock. intros w1.
    destruct (secs <? 0) eqn:E; simpl; [lia|].
    apply Z.ltb_ge in E. unfold second_ns. nia.
Qed.

Lemma ref_never_swallows : never_swallows Ref.colls.
Proof.
  intros s e w. simpl. unfold Ref.do_exit, Ref.guarded, Ref.next_fault.
  destruct (Ref.faults w) as [|[e'|] rest]; simpl;
    try destruct (Ref.take_span s _) as [[o rest']|]; simpl; discriminate.
Qed.

Lemma ref_sleep_waits : sleep_waits Ref.colls Ref.now.
Proof.
  intros secs w w'. simpl. unfold Ref.do_sleep, Ref.guarded, Ref.next_fault.
  destruct (Ref.faults w) as [|[e'|] rest]; simpl;
    try destruct (secs <? 0); simpl; intros E; inversion E; subst; simpl;
    unfold Ref.call_ns; lia.
Qed.

(** ** The steady world meets the assumptions on spans *)

Lemma take_span_held s l :
  match Ref.take_span s l with
  | Some (_, rest) => map Ref.os_id rest = drop_first s (map Ref.os_id l)
  | None => drop_first s (map Ref.os_id l) = map Ref.os_id l
  end.
Proof.
  induction l as [|o l IH]; simpl; [reflexivity|].
  destruct (Nat.eqb_spec (Ref.os_id o) s) as [Heq|Hne].
  - destruct (decide (s = Ref.os_id o)) as [_|Hn]; [reflexivity|congruence].
  - destruct (decide (s = Ref.os_id o)) as [He|_]; [congruence|].
    destruct (Ref.take_span s l) as [[found rest]|]; simpl; congruence.
Qed.

Lemma steady_tracks : tracer_tracks Steady.colls Steady.held.
Proof.
  unfold tracer_tracks, Steady.held. simpl.
  unfold Ref.do_trace, Steady.do_enter, Steady.do_exit, Ref.do_print, Ref.do_sleep,
    Ref.guarded, Ref.next_fault.
  repeat split.
  - intros name w s w'. destruct (Ref.faults w) as [|[e|] rest]; simpl;
      intros E; inversion E; subst; reflexivity.
  - intros name w e w'. destruct (Ref.faults w) as [|[e'|] rest]; simpl;
      intros E; inversion E; subst; reflexivity.
  - intros s w r w' E. inversion E; subst. reflexivity.
  - intros s exc w b w'. simpl.
    pose proof (take_span_held s (Ref.active w)) as Hs.
    destruct (Ref.take_span s (Ref.active w)) as [[o rest]|];
      intros E; inversion E; subst; simpl; congruence.
  - intros text w r w'. destruct (Ref.faults w) as [|[e'|] rest]; simpl;
      intros E; inversion E; subst; reflexivity.
  - intros secs w r w'. destruct (Ref.faults w) as [|[e'|] rest]; simpl;
      try destruct (secs <? 0); intros E; inversion E; subst; reflexivity.
Qed.

Lemma steady_enter_returns : enter_returns Steady.colls.
Proof. intros s w. reflexivity. Qed.

Lemma steady_exit_returns : exit_returns Steady.colls.
Proof.
  intros s exc w. exists false. simpl. unfold Steady.do_exit. simpl.
  destruct (Ref.take_span s (Ref.active w)) as [[o rest]|]; reflexivity.
Qed.

Lemma steady_exit_hands_back : exit_hands_back Steady.colls.
Proof. intros s e w. apply steady_exit_returns. Qed.

Lemma steady_never_swallows : never_swallows Steady.colls.
Proof.
  intros s e w. simpl. unfold Steady.do_exit. simpl.
  destruct (Ref.take_span s (Ref.active w)) as [[o rest]|]; discriminate.
Qed.

(** When the print raises in the steady world, the handler raises its
    exception, the span around the print is finished, flagged with the
    error, and the tracer has no span open. *)
Example steady_print_fails_tracer :
  run_outcome Steady.print_fails_run = Raise Ref.pipe_error /\
  Steady.held (run_world Steady.print_fails_run) = [] /\
  Ref.finished (run_world Steady.print_fails_run) =
    [Ref.FinishedSpan "hello.world" 1000 3000 true] /\
  Ref.stdout (run_world Steady.print_fails_run) = [].
Proof. vm_compute. repeat split. Qed.

(** The same when the sleep raises, with the first span finished clean. *)
Example steady_sleep_fails_tracer :
  run_outcome Steady.sleep_fails_run = Raise Ref.pipe_error /\
  Steady.held (run_world Steady.sleep_fails_run) = [] /\
  Ref.finished (run_world Steady.sleep_fails_run) =
    [Ref.FinishedSpan "hello.world" 1000 3000 false;
     Ref.FinishedSpan "sleep" 5000 3000 true] /\
  Ref.stdout (run_world Steady.sleep_fails_run) = ["Hello, World!"].
Proof. vm_compute. repeat split. Qed.

(** ** The theorems at work in the reference world *)

(** In the calm run both spans end up finished, none open, the second one
    a second long. *)
Example calm_run_tracer :
  Ref.active (run_world Ref.calm_run) = [] /\
  Ref.finished (run_world Ref.calm_run) =
    [Ref.FinishedSpan "hello.world" 1000 3000 false;
     Ref.FinishedSpan "sleep" 5000 (second_ns + 3000) false] /\
  Ref.stdout (run_world Ref.calm_run) = ["Hello, World!"].
Proof. vm_compute. repeat split. Qed.

(** When the print raises, the span around it is finished all the same,
    flagged with the error; the second span is never started. *)
Example print_fails_run_tracer :
  run_outcome Ref.print_fails_run = Raise Ref.pipe_error /\
  Ref.active (run_world Ref.print_fails_run) = [] /\
  Ref.finished (run_world Ref.print_fails_run) =
    [Ref.FinishedSpan "hello.world" 1000 3000 true] /\
  map e_call (run_log Ref.print_fails_run) =
    [CTrace "hello.world"; CEnter 0%nat; CPrint "Hello, World!";
     CExit 0%nat (Some Ref.pipe_error)].
Proof. vm_compute. repeat split. Qed.

Lemma lambda_handler_status_200_witness :
  quiet (run_log Ref.calm_run) = true /\
  exists r, run_outcome Ref.calm_run = Ok r /\ getitem r "statusCode" = Some (VInt 200).
Proof.
  split; [vm_compute; reflexivity|].
  apply (proj2 (lambda_handler_status_200 Ref.colls Ref.empty_event Ref.none_context
                  Ref.store0 (Ref.fresh 0 []))).
  vm_compute. reflexivity.
Defined.

Lemma lambda_handler_body_decodes_witness :
  exists body,
    getitem expected_response "body" = Some (VStr body) /\
    Json.loads body = Some (VDict [(VStr "message", VStr "Hello world!")]).
Proof.
  apply (proj1 (lambda_handler_body_decodes Ref.colls Ref.empty_event Ref.none_context
                  Ref.store0 (Ref.fresh 0 []))).
  vm_compute. reflexivity.
Defined.

Lemma lambda_handler_empty_event_witness :
  Ref.store0 !! Ref.empty_event = Some (VDict []) /\
  Ref.store0 !! Ref.none_context = Some VNone /\
  run_outcome Ref.calm_run =
    Ok (VDict [(VStr "statusCode", VInt 200); (VStr "body", VStr hello_body)]).
Proof.
  split; [vm_compute; reflexivity|]. split; [vm_compute; reflexivity|].
  apply (lambda_handler_empty_event Ref.colls Ref.empty_event Ref.none_context
           Ref.store0 (Ref.fresh 0 [])).
  - vm_compute. reflexivity.
  - vm_compute. reflexivity.
  - vm_compute. reflexivity.
Defined.

Lemma lambda_handler_response_keys_witness :
  keys expected_response = Some [VStr "statusCode"; VStr "body"] /\
  getitem expected_response "headers" = None /\
  getitem expected_response "statusCode" = Some (VInt 200) /\
  getitem expected_response "statusCode" <> Some (VStr "200").
Proof.
  apply (proj1 (lambda_handler_response_keys Ref.colls Ref.empty_event Ref.none_context
                  Ref.store0 (Ref.fresh 0 []))).
  vm_compute. reflexivity.
Defined.

Lemma lambda_handler_same_response_witness :
  exists r,
    run_outcome Ref.calm_run = Ok r /\
    run_outcome (lambda_handler Ref.colls 7%positive 9%positive
                   (<[7%positive := VDict [(VStr "path", VStr "/hello"); (VStr "body", VNone)]]> Ref.store0,
                    Ref.fresh 86400 [])) = Ok r.
Proof.
  apply (proj1 (proj2 (lambda_handler_same_response Ref.colls
           Ref.empty_event Ref.none_context 7%positive 9%positive
           Ref.store0
           (<[7%positive := VDict [(VStr "path", VStr "/hello"); (VStr "body", VNone)]]> Ref.store0)
           (Ref.fresh 0 []) (Ref.fresh 86400 [])))).
  - vm_compute. reflexivity.
  - vm_compute. reflexivity.
Defined.

Lemma lambda_handler_two_spans_witness :
  (exists s1 s2 x1 x2 t1 t2 t3 t4,
     map e_call (run_log Ref.calm_run) =
       [CTrace "hello.world"; CEnter s1; CPrint "Hello, World!"; CExit s1 x1;
        CTrace "sleep"; CEnter s2; CSleep 1; CExit s2 x2;
        CDumps (VDict [(VStr "message", VStr "Hello world!")])] /\
     span_times Ref.now (run_log Ref.calm_run) [] =
       [("hello.world", t1, t2); ("sleep", t3, t4)] /\
     t1 <= t2 /\ t2 <= t3 /\ t3 <= t4) /\
  replays Ref.colls (Ref.fresh 0 []) (run_log Ref.calm_run) (run_world Ref.calm_run) /\
  Ref.stdout (run_world Ref.calm_run) = ["Hello, World!"] /\
  map Ref.fs_name (Ref.finished (run_world Ref.calm_run)) = ["hello.world"; "sleep"].
Proof.
  pose proof (lambda_handler_two_spans Ref.colls Ref.now Ref.empty_event
                Ref.none_context Ref.store0 (Ref.fresh 0 []) ref_clock_monotone)
    as (Hrep & _ & Hret & _ & _).
  split; [|split; [exact Hrep|split; vm_compute; reflexivity]].
  apply (Hret expected_response). vm_compute. reflexivity.
Defined.

Lemma lambda_handler_closes_spans_witness :
  Steady.held (run_world Steady.print_fails_run) = Steady.held (Ref.fresh 0 [None; Some Ref.pipe_error]) /\
  open_spans (run_log Steady.print_fails_run) [] = [] /\
  exists op ex,
    run_log Steady.print_fails_run !! 2%nat = Some op /\
    run_log Steady.print_fails_run !! 3%nat = Some ex /\
    (e_call op = CPrint "Hello, World!" \/ e_call op = CSleep 1) /\
    e_call ex = CExit 0%nat (raised op).
Proof.
  pose proof (lambda_handler_closes_spans Steady.colls Ref.empty_event Ref.none_context
                Ref.store0 (Ref.fresh 0 [None; Some Ref.pipe_error]))
    as (_ & H1 & H2 & H3).
  split; [|split; [exact H1|]].
  - exact (H3 Steady.held steady_tracks steady_enter_returns steady_exit_returns).
  - refine (H2 1%nat (Entry (CEnter 0%nat) (Ok ANone) _ _) 0%nat _ eq_refl eq_refl).
    vm_compute. reflexivity.
Defined.

Lemma lambda_handler_propagates_witness :
  run_outcome Steady.print_fails_run = Raise Ref.pipe_error /\
  (exists r,
     run_outcome (lambda_handler Steady.colls Ref.empty_event Ref.none_context
                    (Ref.store0, Ref.fresh 0 [])) = Ok r).
Proof.
  split.
  - pose proof (lambda_handler_propagates Steady.colls Ref.empty_event Ref.none_context
                  Ref.store0 (Ref.fresh 0 [None; Some Ref.pipe_error])
                  steady_never_swallows steady_exit_hands_back)
      as (_ & Hraise & _).
    refine (Hraise 2%nat (Entry (CPrint "Hello, World!") (Raise Ref.pipe_error) _ _)
              Ref.pipe_error _ eq_refl).
    vm_compute. reflexivity.
  - pose proof (lambda_handler_propagates Steady.colls Ref.empty_event Ref.none_context
                  Ref.store0 (Ref.fresh 0 [])
                  steady_never_swallows steady_exit_hands_back)
      as (_ & _ & _ & Hok & _).
    apply Hok. vm_compute. reflexivity.
Defined.

Lemma lambda_handler_waits_a_second_witness :
  (exists en,
     List.filter (fun en => is_sleep (e_call en)) (run_log Ref.calm_run) = [en] /\
     e_call en = CSleep 1 /\ raised en = None) /\
  0 + second_ns <= Ref.now (run_world Ref.calm_run).
Proof.
  apply (lambda_handler_waits_a_second Ref.colls Ref.now Ref.empty_event Ref.none_context
           Ref.store0 (Ref.fresh 0 []) expected_response
           ref_never_swallows ref_clock_monotone ref_sleep_waits).
  vm_compute. reflexivity.
Defined.

(** * Further properties of the handler, on every path *)

(** ** How many calls, and which *)

(** X1. Whatever the collaborators do, an invocation makes at least one
    and at most nine calls, the first of them [tracer.trace("hello.world")];
    it starts at most two spans, enters and exits at most two, and prints,
    sleeps and serializes at most once each. *)
Theorem lambda_handler_call_budget {W span : Type}
    (c : collaborators W span) (event context : loc) (h : heap) (w : W) :
  (1 <= length (run_log (lambda_handler c event context (h, w))) <= 9)%nat /\
  (exists en,
     run_log (lambda_handler c event context (h, w)) !! 0%nat = Some en /\
     e_call en = CTrace "hello.world") /\
  (count_calls is_trace (run_log (lambda_handler c event context (h, w))) <= 2)%nat /\
  (count_calls is_enter (run_log (lambda_handler c event context (h, w))) <= 2)%nat /\
  (count_calls is_exit (run_log (lambda_handler c event context (h, w))) <= 2)%nat /\
  (count_calls is_print (run_log (lambda_handler c event context (h, w))) <= 1)%nat /\
  (count_calls is_sleep (run_log (lambda_handler c event context (h, w))) <= 1)%nat /\
  (count_calls is_dumps (run_log (lambda_handler c event context (h, w))) <= 1)%nat.
Proof.
  by_run_cases c; unfold count_calls; simpl.
  all: split; [lia|]; split; [eexists; split; reflexivity|]; lia.
Qed.

(** ** Scopes *)

(** X2. At no point of an invocation is more than one span held.  The
    print happens only while the span that [tracer.trace("hello.world")]
    returned is the one held, the sleep only while the one of
    [tracer.trace("sleep")] is; an [__exit__] is only ever called on the
    span then held; and spans are started and entered, and the message is
    serialized, only while none is held. *)
Theorem lambda_handler_scoping {W span : Type} `{EqDecision span}
    (c : collaborators W span) (event context : loc) (h : heap) (w : W) :
  forall (i : nat) en,
    run_log (lambda_handler c event context (h, w)) !! i = Some en ->
    (length (open_spans (take i (run_log (lambda_handler c event context (h, w)))) [])
       <= 1)%nat /\
    (is_print (e_call en) = true ->
     exists j tr s,
       (j < i)%nat /\
       run_log (lambda_handler c event context (h, w)) !! j = Some tr /\
       e_call tr = CTrace "hello.world" /\ e_result tr = Ok (ASpan s) /\
       open_spans (take i (run_log (lambda_handler c event context (h, w)))) [] = [s]) /\
    (is_sleep (e_call en) = true ->
     exists j tr s,
       (j < i)%nat /\
       run_log (lambda_handler c event context (h, w)) !! j = Some tr /\
       e_call tr = CTrace "sleep" /\ e_result tr = Ok (ASpan s) /\
       open_spans (take i (run_log (lambda_handler c event context (h, w)))) [] = [s]) /\
    (forall s x, e_call en = CExit s x ->
       open_spans (take i (run_log (lambda_handler c event context (h, w)))) [] = [s]) /\
    (is_trace (e_call en) || is_enter (e_call en) || is_dumps (e_call en) = true ->
     open_spans (take i (run_log (lambda_handler c event context (h, w)))) [] = []).
Proof.
  by_run_cases c; intros i en Hi; at_index i Hi; simpl; same_span.
  all: (split; [simpl; lia|]).
  all: (split; [intros Hk; first [discriminate Hk
                 | exists 0%nat; do 2 eexists; (split; [lia|]); repeat split]|]).
  all: (split; [intros Hk; first [discriminate Hk
                 | exists 4%nat; do 2 eexists; (split; [lia|]); repeat split]|]).
  all: (split; [intros s x Hk; first [discriminate Hk
                 | injection Hk as <- <-; reflexivity]|]).
  all: intros Hk; first [discriminate Hk | reflexivity].
Qed.

(** ** Arguments *)

(** X3. Every call of every invocation is one of the five the source
    spells out, with its literal argument, or the [__enter__] or the
    [__exit__] of a span that an earlier [tracer.trace] of the same
    invocation returned: nothing is called on the event, the context or a
    span from elsewhere. *)
Theorem lambda_handler_call_arguments {W span : Type}
    (c : collaborators W span) (event context : loc) (h : heap) (w : W) :
  forall (i : nat) en,
    run_log (lambda_handler c event context (h, w)) !! i = Some en ->
    e_call en = CTrace "hello.world" \/
    e_call en = CTrace "sleep" \/
    e_call en = CPrint "Hello, World!" \/
    e_call en = CSleep 1 \/
    e_call en = CDumps (VDict [(VStr "message", VStr "Hello world!")]) \/
    exists j tr s,
      (j < i)%nat /\
      run_log (lambda_handler c event context (h, w)) !! j = Some tr /\
      is_trace (e_call tr) = true /\ e_result tr = Ok (ASpan s) /\
      (e_call en = CEnter s \/ exists x, e_call en = CExit s x).
Proof.
  by_run_cases c; intros i en Hi; at_index i Hi; simpl.
  all: first
    [ left; reflexivity
    | right; left; reflexivity
    | right; right; left; reflexivity
    | right; right; right; left; reflexivity
    | right; right; right; right; left; reflexivity
    | do 5 right; exists 0%nat; do 2 eexists; (split; [lia|]);
      (split; [reflexivity|]); (split; [reflexivity|]); (split; [reflexivity|]);
      first [left; reflexivity | right; eexists; reflexivity]
    | do 5 right; exists 4%nat; do 2 eexists; (split; [lia|]);
      (split; [reflexivity|]); (split; [reflexivity|]); (split; [reflexivity|]);
      first [left; reflexivity | right; eexists; reflexivity] ].
Qed.

(** ** Exceptions that do not reach the caller *)

(** X4. When the handler returns although one of its calls raised, that
    call was the print or the sleep and the [__exit__] called right after
    it, handed that exception, answered true; and the response is the usual
    one. *)
Theorem lambda_handler_swallowed_only {W span : Type}
    (c : collaborators W span) (event context : loc) (h : heap) (w : W) (r : pyval) :
  run_outcome (lambda_handler c event context (h, w)) = Ok r ->
  r = expected_response /\
  forall (i : nat) en e,
    run_log (lambda_handler c event context (h, w)) !! i = Some en ->
    raised en = Some e ->
    (e_call en = CPrint "Hello, World!" \/ e_call en = CSleep 1) /\
    exists ex s,
      run_log (lambda_handler c event context (h, w)) !! S i = Some ex /\
      e_call ex = CExit s (Some e) /\ e_result ex = Ok (ABool true).
Proof.
  intros Hr. split; [exact (returned_value c _ _ _ _ _ Hr)|]. revert Hr.
  by_run_cases c; intros Hr; try discriminate Hr.
  all: intros i en e' Hi He; at_index i Hi; simpl in He; try discriminate He;
    injection He as <-; (split; [auto|]); do 2 eexists;
    (split; [reflexivity|]); split; reflexivity.
Qed.

(** X5. An exception raised by [tracer.trace], by an [__enter__] or by an
    [__exit__] always ends the invocation: the handler raises that very
    exception and the raising call is the last one made, whatever the spans
    answer. *)
Theorem lambda_handler_span_errors_propagate {W span : Type}
    (c : collaborators W span) (event context : loc) (h : heap) (w : W) :
  forall (i : nat) en e,
    run_log (lambda_handler c event context (h, w)) !! i = Some en ->
    raised en = Some e ->
    is_trace (e_call en) || is_enter (e_call en) || is_exit (e_call en) = true ->
    run_outcome (lambda_handler c event context (h, w)) = Raise e /\
    length (run_log (lambda_handler c event context (h, w))) = S i.
Proof.
  by_run_cases c; intros i en e' Hi He Hk; at_index i Hi; simpl in He, Hk;
    try discriminate He; try discriminate Hk; injection He as <-;
    split; reflexivity.
Qed.

(** ** The delay, on every path *)

(** X6. The only sleep ever asked for is of 1 second, and an invocation in
    which it returned lasted at least one second, however the invocation
    ends (on a clock that never goes back and on which a sleep that returns
    lasted at least as long as asked). *)
Theorem lambda_handler_slept_a_second {W span : Type}
    (c : collaborators W span) (clock : W -> Z)
    (event context : loc) (h : heap) (w : W) (i : nat) en :
  clock_monotone c clock ->
  sleep_waits c clock ->
  run_log (lambda_handler c event context (h, w)) !! i = Some en ->
  is_sleep (e_call en) = true ->
  (e_call en = CSleep 1) /\
  (raised en = None ->
   clock w + second_ns <= clock (run_world (lambda_handler c event context (h, w)))).
Proof.
  by_run_cases c; intros Hm Hs Hi Hk; at_index i Hi; simpl in Hk;
    try discriminate Hk; simpl.
  all: (split; [reflexivity|]); intros He; try discriminate He.
  all: match goal with
       | E : time_sleep _ _ _ = _ |- _ => pose proof (Hs _ _ _ E)
       end;
       clock_steps Hm; unfold second_ns in *; lia.
Qed.

(** ** The response is built last *)

(** X7. [json.dumps] is called exactly when the handler is going to
    return: an invocation that returns has called it once, one that raises
    has not called it; when called it is the last call, it is handed the
    message dict and it returns the body text. *)
Theorem lambda_handler_serializes_last {W span : Type}
    (c : collaborators W span) (event context : loc) (h : heap) (w : W) :
  ((exists r, run_outcome (lambda_handler c event context (h, w)) = Ok r) <->
   count_calls is_dumps (run_log (lambda_handler c event context (h, w))) = 1%nat) /\
  ((exists e, run_outcome (lambda_handler c event context (h, w)) = Raise e) <->
   count_calls is_dumps (run_log (lambda_handler c event context (h, w))) = 0%nat) /\
  forall (i : nat) en,
    run_log (lambda_handler c event context (h, w)) !! i = Some en ->
    is_dumps (e_call en) = true ->
    length (run_log (lambda_handler c event context (h, w))) = S i /\
    e_call en = CDumps (VDict [(VStr "message", VStr "Hello world!")]) /\
    e_result en = Ok (AStr hello_body).
Proof.
  by_run_cases c; unfold count_calls; simpl.
  all: (split; [split; [intros [r' Hr']; first [discriminate Hr' | reflexivity]
                       | intros Hn; first [discriminate Hn | eauto]]|]).
  all: (split; [split; [intros [e' He']; first [discriminate He' | reflexivity]
                       | intros Hn; first [discriminate Hn | eauto]]|]).
  all: intros i en Hi Hk; at_index i Hi; simpl in Hk; try discriminate Hk;
    repeat split.
Qed.

(** ** What the answer of [__exit__] decides *)


(** ** The further properties at work *)

(** In the lenient world the failed print goes unnoticed by the caller. *)
Example swallowed_run_returns :
  run_outcome Lenient.swallowed_run = Ok expected_response /\
  Ref.stdout (run_world Lenient.swallowed_run) = [] /\
  map e_call (run_log Lenient.swallowed_run) =
    [CTrace "hello.world"; CEnter 0%nat; CPrint "Hello, World!";
     CExit 0%nat (Some Ref.pipe_error);
     CTrace "sleep"; CEnter 1%nat; CSleep 1; CExit 1%nat None;
     CDumps (VDict [(VStr "message", VStr "Hello world!")])].
Proof. vm_compute. repeat split. Qed.

Lemma lambda_handler_scoping_witness :
  exists en,
    run_log Ref.calm_run !! 6%nat = Some en /\
    is_sleep (e_call en) = true /\
    exists j tr s,
      (j < 6)%nat /\
      run_log Ref.calm_run !! j = Some tr /\
      e_call tr = CTrace "sleep" /\ e_result tr = Ok (ASpan s) /\
      open_spans (take 6 (run_log Ref.calm_run)) [] = [s].
Proof.
  eexists. split; [vm_compute; reflexivity|]. split; [reflexivity|].
  refine (proj1 (proj2 (proj2 (lambda_handler_scoping Ref.colls Ref.empty_event
            Ref.none_context Ref.store0 (Ref.fresh 0 []) 6%nat _ _))) _).
  - vm_compute. reflexivity.
  - reflexivity.
Defined.

Lemma lambda_handler_call_arguments_witness :
  exists en,
    run_log Ref.print_fails_run !! 3%nat = Some en /\
    (e_call en = CTrace "hello.world" \/
     e_call en = CTrace "sleep" \/
     e_call en = CPrint "Hello, World!" \/
     e_call en = CSleep 1 \/
     e_call en = CDumps (VDict [(VStr "message", VStr "Hello world!")]) \/
     exists j tr s,
       (j < 3)%nat /\
       run_log Ref.print_fails_run !! j = Some tr /\
       is_trace (e_call tr) = true /\ e_result tr = Ok (ASpan s) /\
       (e_call en = CEnter s \/ exists x, e_call en = CExit s x)).
Proof.
  eexists. split; [vm_compute; reflexivity|].
  apply (lambda_handler_call_arguments Ref.colls Ref.empty_event Ref.none_context
           Ref.store0 (Ref.fresh 0 [None; None; Some Ref.pipe_error]) 3%nat).
  vm_compute. reflexivity.
Defined.

Lemma lambda_handler_swallowed_only_witness :
  exists en,
    run_log Lenient.swallowed_run !! 2%nat = Some en /\
    raised en = Some Ref.pipe_error /\
    (e_call en = CPrint "Hello, World!" \/ e_call en = CSleep 1) /\
    exists ex s,
      run_log Lenient.swallowed_run !! 3%nat = Some ex /\
      e_call ex = CExit s (Some Ref.pipe_error) /\ e_result ex = Ok (ABool true).
Proof.
  eexists. split; [vm_compute; reflexivity|]. split; [reflexivity|].
  refine (proj2 (lambda_handler_swallowed_only Lenient.colls Ref.empty_event
            Ref.none_context Ref.store0 (Ref.fresh 0 [None; None; Some Ref.pipe_error])
            expected_response _) 2%nat _ Ref.pipe_error _ _).
  - vm_compute. reflexivity.
  - vm_compute. reflexivity.
  - reflexivity.
Defined.

Lemma lambda_handler_span_errors_propagate_witness :
  run_outcome (lambda_handler Ref.colls Ref.empty_event Ref.none_context
                 (Ref.store0, Ref.fresh 0 [None; None; None; None; Some Ref.pipe_error]))
    = Raise Ref.pipe_error /\
  length (run_log (lambda_handler Ref.colls Ref.empty_event Ref.none_context
                 (Ref.store0, Ref.fresh 0 [None; None; None; None; Some Ref.pipe_error])))
    = 5%nat.
Proof.
  refine (lambda_handler_span_errors_propagate Ref.colls Ref.empty_event
            Ref.none_context Ref.store0
            (Ref.fresh 0 [None; None; None; None; Some Ref.pipe_error])
            4%nat (Entry (CTrace "sleep") (Raise Ref.pipe_error) _ _) Ref.pipe_error _ _ _).
  - vm_compute. reflexivity.
  - reflexivity.
  - reflexivity.
Defined.

Lemma lambda_handler_slept_a_second_witness :
  0 + second_ns <= Ref.now (run_world Ref.calm_run).
Proof.
  refine (proj2 (lambda_handler_slept_a_second Ref.colls Ref.now Ref.empty_event
            Ref.none_context Ref.store0 (Ref.fresh 0 []) 6%nat
            (Entry (CSleep 1) (Ok ANone) _ _)
            ref_clock_monotone ref_sleep_waits _ _) _).
  - vm_compute. reflexivity.
  - reflexivity.
  - reflexivity.
Defined.

Lemma lambda_handler_serializes_last_witness :
  exists en,
    run_log Ref.calm_run !! 8%nat = Some en /\
    length (run_log Ref.calm_run) = 9%nat /\
    e_call en = CDumps (VDict [(VStr "message", VStr "Hello world!")]) /\
    e_result en = Ok (AStr hello_body).
Proof.
  eexists. split; [vm_compute; reflexivity|].
  apply (proj2 (proj2 (lambda_handler_serializes_last Ref.colls Ref.empty_event
           Ref.none_context Ref.store0 (Ref.fresh 0 []))) 8%nat).
  - vm_compute. reflexivity.
  - reflexivity.
Defined.

